(** * sprockets.mixins.correlation: correlation identifiers for request handlers

    A shallow embedding of [sprockets/mixins/correlation/mixins.py]:
    [HandlerMixin], [LoggingMixin], [CorrelationAdapter] and the access-log
    writer [correlation_id_logger], together with the request life cycle that
    [tests.py] drives them through.

    The mix-ins sit on top of a request handler supplied by the hosting
    framework.  What the mix-ins need from it (see the docstring of
    [HandlerMixin]) is modelled here as well: a header collection whose keys
    are HTTP header names, [set_header] that overwrites, the hooks [prepare]
    and [set_default_headers] of the classes further down the method
    resolution order, and [clear], which re-establishes the default headers
    at construction time and after an error. *)

From Stdlib Require Import ZArith NArith String Ascii List Floats DecimalString.
From stdpp Require Import base option gmap strings.

Local Open Scope Z_scope.

(** ** Python values that reach the formatting operator *)

Inductive PyVal :=
| PyNone
| PyStr (s : string)
| PyInt (z : Z)
| PyFloat (f : float).

(** [None] of Python is [None] of [option]. *)
Definition of_optional (v : option string) : PyVal :=
  match v with
  | Some s => PyStr s
  | None => PyNone
  end.

(** Truth value of an optional string: [None] and [''] are false. *)
Definition truthy (v : option string) : bool :=
  match v with
  | Some (String _ _) => true
  | _ => false
  end.

(** ** Header names

    Header names are compared without regard to letter case.  The host's
    header collection stores each name in one spelling, every dash-separated
    word capitalised ([Correlation-Id]), and looks names up in that spelling. *)
Module HeaderName.

Definition is_upper (c : ascii) : bool :=
  (65 <=? N_of_ascii c)%N && (N_of_ascii c <=? 90)%N.

Definition is_lower (c : ascii) : bool :=
  (97 <=? N_of_ascii c)%N && (N_of_ascii c <=? 122)%N.

Definition to_lower (c : ascii) : ascii :=
  if is_upper c then ascii_of_N (N_of_ascii c + 32) else c.

Definition to_upper (c : ascii) : ascii :=
  if is_lower c then ascii_of_N (N_of_ascii c - 32) else c.

Definition dash : ascii := "-"%char.

(** [s.lower()] *)
Fixpoint lower (s : string) : string :=
  match s with
  | EmptyString => EmptyString
  | String c s' => String (to_lower c) (lower s')
  end.

(** ["-".join(w.capitalize() for w in name.split("-"))], read from left to
    right: [start] holds at the first character of a word. *)
Fixpoint normalize_from (start : bool) (s : string) : string :=
  match s with
  | EmptyString => EmptyString
  | String c s' =>
      if Ascii.eqb c dash then String dash (normalize_from true s')
      else String (if start then to_upper c else to_lower c)
                  (normalize_from false s')
  end.

Definition normalize (name : string) : string := normalize_from true name.

(** Two names that differ in letter case only. *)
Definition same_name (n1 n2 : string) : Prop := lower n1 = lower n2.

End HeaderName.

(** ** The header collection of the host *)
Module HTTPHeaders.

(** Keys are normalised header names. *)
Abbreviation t := (gmap string string).

Definition empty : t := ∅.

(** [headers.get(name, default)] *)
Definition get (hs : t) (name : string) (default : option string)
  : option string :=
  match hs !! HeaderName.normalize name with
  | Some v => Some v
  | None => default
  end.

(** [headers[name] = value] *)
Definition set (name value : string) (hs : t) : t :=
  <[HeaderName.normalize name := value]> hs.

(** [HTTPHeaders(lines)]: every line is stored under its normalised name,
    a later line replacing an earlier one of the same name. *)
Definition of_list (lines : list (string * string)) : t :=
  fold_left (fun hs line => set (fst line) (snd line) hs) lines empty.

(** [name in headers] *)
Definition mem (hs : t) (name : string) : bool :=
  match hs !! HeaderName.normalize name with
  | Some _ => true
  | None => false
  end.

End HTTPHeaders.

(** ** printf-style formatting *)
Module Format.

(** [%d] of an integer *)
Definition fmt_d (z : Z) : string := NilZero.string_of_int (Z.to_int z).

(** [%s]: [str(v)] for the values the mix-ins pass *)
Definition fmt_s (v : PyVal) : option string :=
  match v with
  | PyNone => Some "None"%string
  | PyStr s => Some s
  | PyInt z => Some (fmt_d z)
  | PyFloat _ => None
  end.

(** The nearest integer to [m * 100 * 2^e], ties to the even one: the
    number of hundredths that [%.2f] prints for the binary fraction
    [m * 2^e]. *)
Definition hundredths (m : positive) (e : Z) : N :=
  let p := (N.pos m * 100)%N in
  if (0 <=? e)%Z then (p * 2 ^ Z.to_N e)%N
  else
    let d := (2 ^ Z.to_N (- e))%N in
    let q := (p / d)%N in
    let r := (p mod d)%N in
    match (2 * r ?= d)%N with
    | Lt => q
    | Gt => (q + 1)%N
    | Eq => if N.even q then q else (q + 1)%N
    end.

Definition digit (n : N) : ascii := ascii_of_N (48 + n).

(** A count of hundredths as [<integer part>.<two digits>] *)
Definition render_hundredths (n : N) : string :=
  NilZero.string_of_uint (N.to_uint (n / 100))
    +:+ String "."%char
          (String (digit ((n mod 100) / 10))
                  (String (digit (n mod 10)) EmptyString)).

Definition sign (negative : bool) : string :=
  if negative then "-"%string else EmptyString.

(** [%.2f] of a float: the exact binary value rounded to the nearest
    hundredth. *)
Definition fmt_2f (x : float) : string :=
  match Prim2SF x with
  | S754_zero s => sign s +:+ "0.00"
  | S754_infinity s => sign s +:+ "inf"
  | S754_nan => "nan"%string
  | S754_finite s m e => sign s +:+ render_hundredths (hundredths m e)
  end.

Definition prepend (pre : string) (rest : option string) : option string :=
  match rest with
  | Some s => Some (pre +:+ s)
  | None => None
  end.

(** [fmt % args] for the conversions [%d], [%s], [%.2f] and [%%].  [None]
    stands for the [TypeError] or [ValueError] that Python raises on a
    conversion that does not fit its argument, on a missing or a left-over
    argument, and for the conversions not modelled. *)
Fixpoint pct_format (fmt : string) (args : list PyVal) : option string :=
  match fmt with
  | EmptyString =>
      match args with
      | [] => Some EmptyString
      | _ :: _ => None
      end
  | String c rest =>
      if negb (Ascii.eqb c "%"%char) then
        prepend (String c EmptyString) (pct_format rest args)
      else
        match rest with
        | String c1 rest1 =>
            if Ascii.eqb c1 "%"%char then
              prepend "%" (pct_format rest1 args)
            else if Ascii.eqb c1 "d"%char then
              match args with
              | PyInt z :: args' => prepend (fmt_d z) (pct_format rest1 args')
              | _ => None
              end
            else if Ascii.eqb c1 "s"%char then
              match args with
              | v :: args' =>
                  match fmt_s v with
                  | Some s => prepend s (pct_format rest1 args')
                  | None => None
                  end
              | [] => None
              end
            else if Ascii.eqb c1 "."%char then
              match rest1 with
              | String c2 (String c3 rest3) =>
                  if Ascii.eqb c2 "2"%char && Ascii.eqb c3 "f"%char then
                    match args with
                    | PyFloat x :: args' =>
                        prepend (fmt_2f x) (pct_format rest3 args')
                    | _ => None
                    end
                  else None
              | _ => None
              end
            else None
        | EmptyString => None
        end
  end.

(** [math.isfinite(x)] *)
Definition finite (x : float) : bool :=
  match Prim2SF x with
  | S754_zero _ | S754_finite _ _ _ => true
  | S754_infinity _ | S754_nan => false
  end.

Definition is_digit (c : ascii) : bool :=
  (48 <=? N_of_ascii c)%N && (N_of_ascii c <=? 57)%N.

Fixpoint all_digits (s : string) : bool :=
  match s with
  | EmptyString => true
  | String c rest => is_digit c && all_digits rest
  end.

(** A point and two digits, and nothing after them. *)
Definition is_fraction (s : string) : bool :=
  match s with
  | String c (String d1 (String d2 EmptyString)) =>
      Ascii.eqb c "."%char && is_digit d1 && is_digit d2
  | _ => false
  end.

(** One digit or more, then a point and two digits. *)
Fixpoint digits_then_fraction (s : string) : bool :=
  match s with
  | EmptyString => false
  | String c rest => is_digit c && (is_fraction rest || digits_then_fraction rest)
  end.

(** A decimal numeral with exactly two digits after the point. *)
Definition has_two_decimals (s : string) : bool :=
  match s with
  | EmptyString => false
  | String c rest =>
      if Ascii.eqb c "-"%char then digits_then_fraction rest
      else digits_then_fraction s
  end.

End Format.

(** ** The request handler of the host *)

Record HTTPServerRequest := {
  headers : HTTPHeaders.t;        (* request.headers *)
  request_time : float;           (* request.request_time(), in seconds *)
}.

(** The state of the handler that belongs to the host framework. *)
Record RequestHandler := {
  request : HTTPServerRequest;
  _headers : HTTPHeaders.t;       (* the headers of the response *)
  _status_code : Z;
  _finished : bool;
  _request_summary : string;
}.

Module Base.

Definition with_headers (hs : HTTPHeaders.t) (r : RequestHandler)
  : RequestHandler :=
  {| request := request r; _headers := hs; _status_code := _status_code r;
     _finished := _finished r; _request_summary := _request_summary r |}.

Definition with_status (code : Z) (r : RequestHandler) : RequestHandler :=
  {| request := request r; _headers := _headers r; _status_code := code;
     _finished := _finished r; _request_summary := _request_summary r |}.

Definition with_finished (b : bool) (r : RequestHandler) : RequestHandler :=
  {| request := request r; _headers := _headers r;
     _status_code := _status_code r; _finished := b;
     _request_summary := _request_summary r |}.

(** [set_header(name, value)]: overwrites the value of the header. *)
Definition set_header (name value : string) (r : RequestHandler)
  : RequestHandler :=
  with_headers (HTTPHeaders.set name value (_headers r)) r.

Definition get_status (r : RequestHandler) : Z := _status_code r.

(** A handler that has not written anything yet. *)
Definition fresh (req : HTTPServerRequest) (summary : string)
  : RequestHandler :=
  {| request := req; _headers := HTTPHeaders.empty; _status_code := 200;
     _finished := false; _request_summary := summary |}.

End Base.

(** The classes below the mix-in in the method resolution order: what
    [super().prepare()] and [super().set_default_headers()] do to the handler,
    and the headers that [clear()] starts the response with.  They see the
    host's part of the object only: the attributes of [HandlerMixin] are
    private to it. *)
Class Upstream := {
  super_prepare : RequestHandler -> RequestHandler;
  super_set_default_headers : RequestHandler -> RequestHandler;
  initial_headers : HTTPHeaders.t;
}.

(** The handler of the framework itself: both hooks do nothing. *)
Definition plain_upstream (initial : HTTPHeaders.t) : Upstream :=
  {| super_prepare := fun r => r;
     super_set_default_headers := fun r => r;
     initial_headers := initial |}.

(** ** HandlerMixin *)

(** The object: the host's part and the two private attributes that
    [__init__] sets (mixins.py, lines 40 to 42).  The identifier is a string:
    the text of a UUID, the value of a header, or what the application
    assigned. *)
Record Handler := {
  base : RequestHandler;
  __header_name : string;
  __correlation_id : string;
}.

Module HandlerMixin.
Section WithUpstream.
Context `{Upstream}.

Definition with_base (r : RequestHandler) (h : Handler) : Handler :=
  {| base := r; __header_name := __header_name h;
     __correlation_id := __correlation_id h |}.

Definition set_header (name value : string) (h : Handler) : Handler :=
  with_base (Base.set_header name value (base h)) h.

(** The property [correlation_id]. *)
Definition correlation_id (h : Handler) : string := __correlation_id h.

(** The setter of the property [correlation_id] (lines 70 to 73). *)
Definition set_correlation_id (value : string) (h : Handler) : Handler :=
  let h := {| base := base h; __header_name := __header_name h;
              __correlation_id := value |} in
  set_header (__header_name h) (__correlation_id h) h.

(** [set_default_headers] (lines 58 to 63): the upstream hook first, then
    the correlation header. *)
Definition set_default_headers (h : Handler) : Handler :=
  let h := with_base (super_set_default_headers (base h)) h in
  set_header (__header_name h) (correlation_id h) h.

(** [get_request_header] (lines 75 to 90) *)
Definition get_request_header (h : Handler) (name : string)
    (default : option string) : option string :=
  HTTPHeaders.get (headers (request (base h))) name default.

(** [prepare] (lines 45 to 56): the upstream [prepare] runs to its end
    first; the inbound header is adopted unless it is [None]. *)
Definition prepare (h : Handler) : Handler :=
  let h := with_base (super_prepare (base h)) h in
  match get_request_header h (__header_name h) None with
  | Some correlation_id => set_correlation_id correlation_id h
  | None => h
  end.

(** [clear()] of the host: the response starts over from the initial
    headers and status 200, and the hook [set_default_headers] of the
    object runs. *)
Definition clear (h : Handler) : Handler :=
  set_default_headers
    (with_base (Base.with_status 200
                  (Base.with_headers initial_headers (base h))) h).

(** [__init__(correlation_header=..., )]: [uuid4] is the value of
    [str(uuid.uuid4())]; the constructor of the host ends in [clear()]. *)
Definition __init__ (correlation_header : option string) (uuid4 : string)
    (r : RequestHandler) : Handler :=
  clear {| base := r;
           __header_name := default "Correlation-ID"%string correlation_header;
           __correlation_id := uuid4 |}.

Definition set_status (code : Z) (h : Handler) : Handler :=
  with_base (Base.with_status code (base h)) h.

(** [finish()]: the response goes out with the headers as they are. *)
Definition finish (h : Handler) : Handler :=
  with_base (Base.with_finished true (base h)) h.

(** [send_error(status_code)]: what the host does with an exception of the
    handler. *)
Definition send_error (code : Z) (h : Handler) : Handler :=
  finish (set_status code (clear h)).

(** The value of the correlation header of the response. *)
Definition outbound (h : Handler) : option string :=
  HTTPHeaders.get (_headers (base h)) (__header_name h) None.

(** The inbound correlation header as [prepare] reads it, after the
    upstream [prepare] has run. *)
Definition inbound (h : Handler) : option string :=
  get_request_header (with_base (super_prepare (base h)) h)
    (__header_name h) None.

(** The upstream [prepare] leaves the header called [name] of the response
    as it found it. *)
Definition upstream_keeps (name : string) : Prop :=
  forall r, HTTPHeaders.get (_headers (super_prepare r)) name None
            = HTTPHeaders.get (_headers r) name None.

(** The states a handler goes through: construction, the hooks of the
    mix-in, the error reset of the host, and what else the host and the
    application do to a response short of writing the correlation header
    themselves. *)
Inductive reachable : Handler -> Prop :=
| reach_init correlation_header uuid4 r :
    reachable (__init__ correlation_header uuid4 r)
| reach_prepare h :
    reachable h -> reachable (prepare h)
| reach_set_default_headers h :
    reachable h -> reachable (set_default_headers h)
| reach_set_correlation_id value h :
    reachable h -> reachable (set_correlation_id value h)
| reach_clear h :
    reachable h -> reachable (clear h)
| reach_send_error code h :
    reachable h -> reachable (send_error code h)
| reach_set_status code h :
    reachable h -> reachable (set_status code h)
| reach_finish h :
    reachable h -> reachable (finish h)
| reach_set_header name value h :
    HeaderName.normalize name <> HeaderName.normalize (__header_name h) ->
    reachable h -> reachable (set_header name value h).

End WithUpstream.
End HandlerMixin.

(** ** Log records *)

Inductive Level := DEBUG | INFO | WARNING | ERROR | CRITICAL.

(** What a logger is handed by one logging call: the message template and
    the positional arguments are kept apart until the record is rendered. *)
Record LogRecord := {
  levelname : Level;
  msg : string;
  args : list PyVal;
}.

(** [record.getMessage()]: [msg % args] when there are arguments, [msg]
    otherwise. *)
Definition getMessage (r : LogRecord) : option string :=
  match args r with
  | [] => Some (msg r)
  | _ :: _ => Format.pct_format (msg r) (args r)
  end.

(** The values of keyword arguments of a logging call. *)
Inductive KwVal :=
| KwExtra (extra : gmap string string)
| KwFlag (b : bool).

(** ** CorrelationAdapter *)
Module CorrelationAdapter.

Record t := {
  logger : string;                    (* the name of the adapted logger *)
  extra : gmap string string;
  correlation_id : option string;
}.

(** [logging.LoggerAdapter.process]: the message passes through, the
    adapter's [extra] goes into the keyword arguments. *)
Definition LoggerAdapter_process (a : t) (msg : string)
    (kwargs : gmap string KwVal) : string * gmap string KwVal :=
  (msg, <["extra"%string := KwExtra (extra a)]> kwargs).

(** [CorrelationAdapter(logger, extra=None)] *)
Definition __init__ (logger : string) (extra : option (gmap string string))
  : t :=
  {| logger := logger; extra := default ∅ extra; correlation_id := None |}.

Definition set_correlation_id (v : option string) (a : t) : t :=
  {| logger := logger a; extra := extra a; correlation_id := v |}.

(** [process] (lines 148 to 151) *)
Definition process (a : t) (msg : string) (kwargs : gmap string KwVal)
  : option (string * gmap string KwVal) :=
  if truthy (correlation_id a) then
    match Format.pct_format " {CID %s}" [of_optional (correlation_id a)] with
    | Some suffix => Some (LoggerAdapter_process a (msg +:+ suffix) kwargs)
    | None => None
    end
  else Some (LoggerAdapter_process a msg kwargs).

(** [logging.LoggerAdapter.log(level, msg, *args, **kwargs)]: the adapted
    logger receives the processed message and the arguments as given. *)
Definition log (a : t) (level : Level) (msg : string) (args : list PyVal)
    (kwargs : gmap string KwVal) : option LogRecord :=
  match process a msg kwargs with
  | Some (msg', _) => Some {| levelname := level; msg := msg'; args := args |}
  | None => None
  end.

(** The text that [process] appends for the identifier [s]. *)
Definition suffix (s : string) : string := " {CID " +:+ s +:+ "}".

End CorrelationAdapter.

(** ** LoggingMixin *)

Record LoggingHandler := {
  handler : Handler;
  logger : CorrelationAdapter.t;
}.

Module LoggingMixin.
Section WithUpstream.
Context `{Upstream}.

(** [initialize()]: [existing] is the [logger] attribute that the object
    has when [super().initialize()] returns, if it has one; otherwise the
    logger is named after the class. *)
Definition initialize (existing : option string) (class_name : string)
    (h : Handler) : LoggingHandler :=
  {| handler := h;
     logger := CorrelationAdapter.__init__ (default class_name existing) None |}.

(** [prepare] (lines 119 to 126) *)
Definition prepare (lh : LoggingHandler) : LoggingHandler :=
  let h := HandlerMixin.prepare (handler lh) in
  if negb (_finished (base h)) then
    {| handler := h;
       logger := CorrelationAdapter.set_correlation_id
                   (Some (HandlerMixin.correlation_id h)) (logger lh) |}
  else {| handler := h; logger := logger lh |}.

End WithUpstream.
End LoggingMixin.

(** ** The access-log writer *)

(** The handler as [correlation_id_logger] sees it.  The function is handed
    whatever handler served the request, so the attribute [correlation_id]
    may be missing ([None] here), and where it exists its value may be
    [None] of Python ([Some None] here). *)
Record AnyHandler := {
  any_base : RequestHandler;
  any_correlation_id : option (option string);
  any_correlation_header : option string;   (* the configured header name *)
}.

(** A handler with [HandlerMixin] mixed in. *)
Definition correlated (h : Handler) : AnyHandler :=
  {| any_base := base h;
     any_correlation_id := Some (Some (HandlerMixin.correlation_id h));
     any_correlation_header := Some (__header_name h) |}.

(** A handler without the mix-in. *)
Definition uncorrelated (r : RequestHandler) : AnyHandler :=
  {| any_base := r; any_correlation_id := None;
     any_correlation_header := None |}.

(** [getattr(handler, "correlation_id", None)] *)
Definition getattr_correlation_id (handler : AnyHandler) : option string :=
  match any_correlation_id handler with
  | Some v => v
  | None => None
  end.

(** The logging method chosen from the status of the response. *)
Definition log_method (status : Z) : Level :=
  if status <? 400 then INFO
  else if status <? 500 then WARNING
  else ERROR.

(** The identifier that goes into the access-log line. *)
Definition logged_correlation_id (handler : AnyHandler) : option string :=
  let correlation_id := getattr_correlation_id handler in
  match correlation_id with
  | None =>
      HTTPHeaders.get (headers (request (any_base handler)))
        "Correlation-ID" None
  | Some _ => correlation_id
  end.

(** [correlation_id_logger(handler)] (lines 168 to 179): [access_log] is
    what the access logger has received so far. *)
Definition correlation_id_logger (handler : AnyHandler)
    (access_log : list LogRecord) : list LogRecord :=
  let level := log_method (Base.get_status (any_base handler)) in
  let request_time :=
    (1000.0 * request_time (request (any_base handler)))%float in
  let correlation_id := logged_correlation_id handler in
  access_log ++
    [ {| levelname := level;
         msg := "%d %s %.2fms {CID %s}";
         args := [ PyInt (Base.get_status (any_base handler));
                   PyStr (_request_summary (any_base handler));
                   PyFloat request_time;
                   of_optional correlation_id ] |} ].

(** How the identifier reads in the line: [None] of Python prints as
    [None]. *)
Definition id_text (correlation_id : option string) : string :=
  match correlation_id with
  | Some s => s
  | None => "None"
  end.

(** The line [<status> <summary> <duration>ms {CID <id>}]. *)
Definition access_line (status : Z) (summary : string) (ms : float)
    (correlation_id : option string) : string :=
  Format.fmt_d status +:+ " " +:+ summary +:+ " " +:+ Format.fmt_2f ms
    +:+ "ms {CID " +:+ id_text correlation_id +:+ "}".

(** A finished request [GET /x HTTP/1.1] with status 200 that took
    [seconds], served by a handler whose identifier is [abc]. *)
Definition access_log_example (seconds : float) : AnyHandler :=
  {| any_base :=
       {| request := {| headers := HTTPHeaders.empty; request_time := seconds |};
          _headers := HTTPHeaders.empty;
          _status_code := 200;
          _finished := true;
          _request_summary := "GET /x HTTP/1.1" |};
     any_correlation_id := Some (Some "abc"%string);
     any_correlation_header := Some "Correlation-ID"%string |}.

(** The handler with another configured header name. *)
Definition with_correlation_header (name : option string)
    (handler : AnyHandler) : AnyHandler :=
  {| any_base := any_base handler;
     any_correlation_id := any_correlation_id handler;
     any_correlation_header := name |}.

(** ** The handler of the test suite *)

(** The response as the client receives it. *)
Record HTTPResponse := {
  code : Z;
  response_headers : HTTPHeaders.t;
}.

Module CorrelatedRequestHandler.
Section WithUpstream.
Context `{Upstream}.

(** [get(status_code)]: [inr] is the [HTTPError] raised for a status of 300
    and more. *)
Definition get (status_code : Z) (h : Handler) : Handler + Z :=
  if 300 <=? status_code then inr status_code else inl h.

(** One request from construction to the response: [prepare], then [get],
    then either [finish] or [send_error]. *)
Definition execute (status_code : Z) (h : Handler) : Handler :=
  let h := HandlerMixin.prepare h in
  if _finished (base h) then h
  else
    match get status_code h with
    | inl h' => HandlerMixin.finish h'
    | inr error => HandlerMixin.send_error error h
    end.

(** [self.fetch('/status/<status_code>', headers=...)] against a handler
    whose identifier was generated as [uuid4]. *)
Definition fetch (correlation_header : option string) (uuid4 : string)
    (status_code : Z) (request_headers : list (string * string))
  : HTTPResponse * Handler :=
  let req := {| headers := HTTPHeaders.of_list request_headers;
                request_time := 0%float |} in
  let h := execute status_code
             (HandlerMixin.__init__ correlation_header uuid4
                (Base.fresh req "GET")) in
  ({| code := Base.get_status (base h);
      response_headers := _headers (base h) |}, h).

End WithUpstream.
End CorrelatedRequestHandler.

(** ** Messages with arguments, and a run of requests *)


(** The access log after the application has called its [log_function] for
    the finished requests [handlers], first to last. *)
Definition log_requests (handlers : list AnyHandler)
    (access_log : list LogRecord) : list LogRecord :=
  fold_left (fun log handler => correlation_id_logger handler log)
    handlers access_log.

(** What one finished request contributes to the access log. *)
Definition access_record (handler : AnyHandler) (r : LogRecord) : Prop :=
  levelname r = log_method (_status_code (any_base handler))
  /\ getMessage r
     = Some (access_line (_status_code (any_base handler))
               (_request_summary (any_base handler))
               (1000.0 * request_time (request (any_base handler)))%float
               (logged_correlation_id handler)).

(** ** Requests to try the handlers on *)

(** The handler of the framework, with no default headers of its own. *)
Definition tornado : Upstream := plain_upstream HTTPHeaders.empty.

(** A request with the given header lines. *)
Definition request_with (lines : list (string * string)) : HTTPServerRequest :=
  {| headers := HTTPHeaders.of_list lines; request_time := 0%float |}.

(** A handler under construction for such a request, its identifier
    generated as [uuid4]. *)
Definition new_handler (correlation_header : option string) (uuid4 : string)
    (lines : list (string * string)) : Handler :=
  @HandlerMixin.__init__ tornado correlation_header uuid4
    (Base.fresh (request_with lines) "GET /status").

Definition uuid_a : string := "16fd2706-8baf-433b-82eb-8c7fada847da".

(** A request that took 0.012345 s, 12.345 ms; both numbers stand for the
    binary fractions nearest to them. *)
Definition seconds_12_345 : float := 0x1.94855da272863p-7%float.

(** The handler of a finished request as the access-log writer sees it. *)
Definition finished_handler (status : Z) (lines : list (string * string))
    (correlation_id : option (option string))
    (correlation_header : option string) : AnyHandler :=
  {| any_base :=
       {| request := {| headers := HTTPHeaders.of_list lines;
                        request_time := seconds_12_345 |};
          _headers := HTTPHeaders.empty;
          _status_code := status;
          _finished := true;
          _request_summary := "GET /x HTTP/1.1" |};
     any_correlation_id := correlation_id;
     any_correlation_header := correlation_header |}.

(** * Properties *)

(** ** Header names and the header collection *)
Section HeaderFacts.
Import HeaderName.

Lemma to_lower_dash c : Ascii.eqb (to_lower c) dash = Ascii.eqb c dash.
Proof. destruct c as [[] [] [] [] [] [] [] []]; reflexivity. Qed.

Lemma to_upper_to_lower c : to_upper (to_lower c) = to_upper c.
Proof. destruct c as [[] [] [] [] [] [] [] []]; reflexivity. Qed.

Lemma to_lower_to_lower c : to_lower (to_lower c) = to_lower c.
Proof. destruct c as [[] [] [] [] [] [] [] []]; reflexivity. Qed.

Lemma normalize_from_lower start s :
  normalize_from start (lower s) = normalize_from start s.
Proof.
  revert start; induction s as [|c s IH]; intros start; simpl; [reflexivity|].
  rewrite to_lower_dash.
  destruct (Ascii.eqb c dash); rewrite IH; [reflexivity|].
  destruct start; [rewrite to_upper_to_lower | rewrite to_lower_to_lower];
    reflexivity.
Qed.

Lemma same_name_normalize n1 n2 :
  same_name n1 n2 -> normalize n1 = normalize n2.
Proof.
  unfold same_name, normalize; intros E.
  rewrite <- (normalize_from_lower true n1), E.
  apply normalize_from_lower.
Qed.

Lemma get_same_name hs n1 n2 d :
  same_name n1 n2 -> HTTPHeaders.get hs n1 d = HTTPHeaders.get hs n2 d.
Proof.
  intros E; unfold HTTPHeaders.get.
  rewrite (same_name_normalize _ _ E); reflexivity.
Qed.

Lemma get_set_eq hs n v d :
  HTTPHeaders.get (HTTPHeaders.set n v hs) n d = Some v.
Proof.
  unfold HTTPHeaders.get, HTTPHeaders.set.
  rewrite lookup_insert_eq; reflexivity.
Qed.

Lemma get_set_ne hs n n' v d :
  normalize n <> normalize n' ->
  HTTPHeaders.get (HTTPHeaders.set n v hs) n' d = HTTPHeaders.get hs n' d.
Proof.
  intros Hne; unfold HTTPHeaders.get, HTTPHeaders.set.
  rewrite lookup_insert_ne by exact Hne; reflexivity.
Qed.

Lemma get_absent hs n d :
  HTTPHeaders.mem hs n = false -> HTTPHeaders.get hs n d = d.
Proof.
  unfold HTTPHeaders.mem, HTTPHeaders.get.
  destruct (hs !! normalize n); [discriminate | reflexivity].
Qed.

Lemma get_present hs n d v :
  HTTPHeaders.get hs n None = Some v -> HTTPHeaders.get hs n d = Some v.
Proof.
  unfold HTTPHeaders.get.
  destruct (hs !! normalize n); [trivial | discriminate].
Qed.

End HeaderFacts.

(** ** The correlation header of the response *)
Section ProviderFacts.
Context `{Upstream}.
Import HandlerMixin.

Lemma set_correlation_id_outbound value h :
  outbound (set_correlation_id value h) = Some value
  /\ correlation_id (set_correlation_id value h) = value
  /\ __header_name (set_correlation_id value h) = __header_name h.
Proof.
  unfold outbound, set_correlation_id, set_header; simpl.
  rewrite get_set_eq; auto.
Qed.

Lemma set_default_headers_outbound h :
  outbound (set_default_headers h) = Some (correlation_id h)
  /\ correlation_id (set_default_headers h) = correlation_id h
  /\ __header_name (set_default_headers h) = __header_name h.
Proof.
  unfold outbound, set_default_headers, set_header; simpl.
  rewrite get_set_eq; auto.
Qed.

Lemma clear_outbound h :
  outbound (clear h) = Some (correlation_id h)
  /\ correlation_id (clear h) = correlation_id h
  /\ __header_name (clear h) = __header_name h.
Proof.
  exact (set_default_headers_outbound
           (with_base (Base.with_status 200
              (Base.with_headers initial_headers (base h))) h)).
Qed.

Lemma prepare_cases h :
  match inbound h with
  | Some v => prepare h = set_correlation_id v (with_base (super_prepare (base h)) h)
  | None => prepare h = with_base (super_prepare (base h)) h
  end.
Proof.
  unfold inbound, prepare; simpl.
  destruct (get_request_header _ _ _); reflexivity.
Qed.

Lemma prepare_header_name h : __header_name (prepare h) = __header_name h.
Proof.
  pose proof (prepare_cases h) as P.
  destruct (inbound h); rewrite P; reflexivity.
Qed.

Lemma reachable_invariant h :
  reachable h ->
  upstream_keeps (__header_name h) ->
  outbound h = Some (correlation_id h).
Proof.
  induction 1 as [kw uuid4 r | h R IH | h R IH | value h R IH | h R IH
                 | code h R IH | code h R IH | h R IH | name value h Hne R IH];
    intros K.
  - unfold __init__.
    match goal with |- outbound (clear ?h0) = _ =>
      destruct (clear_outbound h0) as (-> & -> & _) end.
    reflexivity.
  - rewrite prepare_header_name in K.
    pose proof (prepare_cases h) as P.
    destruct (inbound h) as [v|]; rewrite P.
    + destruct (set_correlation_id_outbound v
                  (with_base (super_prepare (base h)) h)) as (-> & -> & _).
      reflexivity.
    + unfold outbound; simpl. rewrite K. apply IH, K.
  - destruct (set_default_headers_outbound h) as (-> & -> & _); reflexivity.
  - destruct (set_correlation_id_outbound value h) as (-> & -> & _);
      reflexivity.
  - destruct (clear_outbound h) as (-> & -> & _); reflexivity.
  - unfold send_error, finish, set_status, outbound; simpl.
    rewrite get_set_eq; reflexivity.
  - apply IH, K.
  - apply IH, K.
  - unfold outbound, set_header; simpl.
    rewrite get_set_ne by exact Hne. apply IH, K.
Qed.

Lemma execute_reachable status_code h :
  reachable h -> reachable (CorrelatedRequestHandler.execute status_code h).
Proof.
  intros R; unfold CorrelatedRequestHandler.execute,
    CorrelatedRequestHandler.get.
  destruct (_finished (base (prepare h))); [apply reach_prepare, R|].
  destruct (300 <=? status_code).
  - apply reach_send_error, reach_prepare, R.
  - apply reach_finish, reach_prepare, R.
Qed.

Lemma execute_correlation_id status_code h :
  correlation_id (CorrelatedRequestHandler.execute status_code h)
  = correlation_id (prepare h)
  /\ __header_name (CorrelatedRequestHandler.execute status_code h)
    = __header_name h.
Proof.
  unfold CorrelatedRequestHandler.execute, CorrelatedRequestHandler.get.
  destruct (_finished (base (prepare h)));
    [split; [reflexivity | apply prepare_header_name]|].
  destruct (300 <=? status_code); simpl;
    (split; [reflexivity | apply prepare_header_name]).
Qed.

Lemma prepare_correlation_id h :
  correlation_id (prepare h)
  = match inbound h with Some v => v | None => correlation_id h end.
Proof.
  pose proof (prepare_cases h) as P.
  destruct (inbound h); rewrite P; reflexivity.
Qed.

End ProviderFacts.

(** ** A request against the handler of the framework itself *)
Section PlainHost.
Variable initial : HTTPHeaders.t.
Let plain : Upstream := plain_upstream initial.
Import HandlerMixin.

Lemma plain_upstream_keeps name : @upstream_keeps plain name.
Proof. intros r; reflexivity. Qed.

Lemma fetch_copies_inbound correlation_header uuid4 status_code lines v n :
  HTTPHeaders.get (HTTPHeaders.of_list lines)
    (default "Correlation-ID"%string correlation_header) None = Some v ->
  HeaderName.same_name n (default "Correlation-ID"%string correlation_header) ->
  HTTPHeaders.get
    (response_headers
       (fst (@CorrelatedRequestHandler.fetch plain correlation_header uuid4
               status_code lines))) n None = Some v.
Proof.
  intros P E.
  unfold CorrelatedRequestHandler.fetch.
  set (h0 := __init__ _ _ _).
  cbn [fst response_headers].
  destruct (execute_correlation_id (H:=plain) status_code h0) as [Ec En].
  pose proof (reachable_invariant (H:=plain) _
                (execute_reachable (H:=plain) status_code h0
                   (reach_init (H:=plain) _ _ _))
                (plain_upstream_keeps _)) as I.
  unfold outbound in I. rewrite En in I.
  rewrite (get_same_name _ _ _ _ E).
  change (__header_name h0)
    with (default "Correlation-ID"%string correlation_header) in I.
  rewrite I, Ec, prepare_correlation_id.
  change (inbound (H:=plain) h0)
    with (HTTPHeaders.get (HTTPHeaders.of_list lines)
            (default "Correlation-ID"%string correlation_header) None).
  rewrite P; reflexivity.
Qed.

End PlainHost.

Section ProviderClaims.
Context `{Upstream}.
Import HandlerMixin.

Lemma iter_set_default_headers n h :
  correlation_id (Nat.iter n set_default_headers h) = correlation_id h
  /\ __header_name (Nat.iter n set_default_headers h) = __header_name h.
Proof.
  induction n as [|n [IHc IHn]]; [split; reflexivity|].
  rewrite Nat.iter_succ.
  destruct (set_default_headers_outbound (Nat.iter n set_default_headers h))
    as (_ & -> & ->); auto.
Qed.

(** C1: at every state a handler reaches, and so whenever a response goes
    out, the correlation header of the response is present and holds the
    current identifier; the default-headers hook writes it again every time
    it runs, on its own and as part of the reset after an error; every
    assignment to the identifier writes it at once; a request that ends in
    success and one that ends in an error both send it. *)
Theorem outbound_header_is_identifier (h : Handler) :
  reachable h ->
  upstream_keeps (__header_name h) ->
  outbound h = Some (correlation_id h)
  /\ outbound (set_default_headers h) = Some (correlation_id h)
  /\ outbound (clear h) = Some (correlation_id h)
  /\ (forall value,
        outbound (set_correlation_id value h) = Some value
        /\ correlation_id (set_correlation_id value h) = value)
  /\ (forall status_code,
        let h' := CorrelatedRequestHandler.execute status_code h in
        outbound h' = Some (correlation_id h')).
Proof.
  intros R K.
  split; [exact (reachable_invariant h R K)|].
  split; [apply set_default_headers_outbound|].
  split; [apply clear_outbound|].
  split.
  - intros value.
    destruct (set_correlation_id_outbound value h) as (E1 & E2 & _); auto.
  - intros status_code h'.
    apply reachable_invariant; [apply execute_reachable, R|].
    assert (E : __header_name h' = __header_name h); [|rewrite E; exact K].
    unfold h', CorrelatedRequestHandler.execute, CorrelatedRequestHandler.get.
    destruct (_finished (base (prepare h))); [apply prepare_header_name|].
    destruct (300 <=? status_code); simpl; apply prepare_header_name.
Qed.

(** C2, as amended: [prepare] adopts the value of the inbound correlation
    header exactly when the header is present, the empty value included,
    and the header of the response then holds that value verbatim; when
    the header is absent the identifier stays what it was. *)
Theorem prepare_adopts_inbound_header (h : Handler) :
  (forall v, inbound h = Some v ->
     correlation_id (prepare h) = v /\ outbound (prepare h) = Some v)
  /\ (inbound h = None ->
      correlation_id (prepare h) = correlation_id h
      /\ base (prepare h) = super_prepare (base h)).
Proof.
  pose proof (prepare_cases h) as P.
  split.
  - intros v E; rewrite E in P; rewrite P.
    destruct (set_correlation_id_outbound v
                (with_base (super_prepare (base h)) h)) as (E1 & E2 & _); auto.
  - intros E; rewrite E in P; rewrite P; auto.
Qed.

Lemma set_default_headers_twice h :
  (forall r, super_set_default_headers r = r) ->
  set_default_headers (set_default_headers h) = set_default_headers h.
Proof.
  intros N. unfold set_default_headers, set_header, Base.set_header,
    HTTPHeaders.set, with_base, Base.with_headers, correlation_id; simpl.
  rewrite !N; simpl. rewrite insert_insert_eq. reflexivity.
Qed.

(** C7: however many times the default-headers hook runs in a row, the
    correlation header of the response has the value it had after the first
    run, the current identifier; over a host whose own hook does nothing the
    whole handler is as it was after the first run. *)
Theorem set_default_headers_idempotent (h : Handler) (n : nat) :
  outbound (Nat.iter (S n) set_default_headers h)
  = outbound (set_default_headers h)
  /\ outbound (Nat.iter (S n) set_default_headers h)
    = Some (correlation_id h)
  /\ correlation_id (Nat.iter (S n) set_default_headers h)
    = correlation_id h
  /\ ((forall r, super_set_default_headers r = r) ->
      Nat.iter (S n) set_default_headers h = set_default_headers h).
Proof.
  destruct (iter_set_default_headers n h) as [Ec En].
  destruct (set_default_headers_outbound h) as (E1 & _).
  destruct (set_default_headers_outbound (Nat.iter n set_default_headers h))
    as (E2 & E3 & _).
  rewrite Nat.iter_succ, E1, E2, E3, Ec. repeat split.
  intros N. clear - N. induction n as [|n IH]; [reflexivity|].
  rewrite Nat.iter_succ, IH. apply set_default_headers_twice, N.
Qed.

(** C9: [get_request_header] finds a header whatever the letter case of the
    name it is asked for, and returns the default when the header is
    absent; a request that carries [Correlation-Id: deadbeef] and ends in
    status 500 is answered with that value in the correlation header. *)
Theorem get_request_header_case_insensitive (h : Handler)
    (name name' : string) (default : option string) :
  HeaderName.same_name name name' ->
  get_request_header h name default = get_request_header h name' default
  /\ (forall v,
        HTTPHeaders.get (headers (request (base h))) name' None = Some v ->
        get_request_header h name default = Some v)
  /\ (forall v hs,
        headers (request (base h)) = HTTPHeaders.set name' v hs ->
        get_request_header h name default = Some v)
  /\ (HTTPHeaders.mem (headers (request (base h))) name' = false ->
      get_request_header h name default = default)
  /\ (forall initial uuid4,
        let response :=
          fst (@CorrelatedRequestHandler.fetch (plain_upstream initial)
                 None uuid4 500 [("Correlation-Id", "deadbeef")]%string) in
        code response = 500
        /\ HTTPHeaders.get (response_headers response) "correlation-id" None
           = Some "deadbeef"%string).
Proof.
  intros E; unfold get_request_header.
  split; [apply get_same_name, E|].
  split; [intros v P; rewrite (get_same_name _ _ _ _ E);
          apply get_present, P|].
  split; [intros v hs S; rewrite S, (get_same_name _ _ _ _ E);
          apply get_set_eq|].
  split; [intros A; rewrite (get_same_name _ _ _ _ E); apply get_absent, A|].
  intros initial uuid4; split; [reflexivity|].
  apply fetch_copies_inbound; [|reflexivity].
  rewrite (get_same_name _ "Correlation-ID" "Correlation-Id")
    by reflexivity.
  apply get_set_eq.
Qed.

End ProviderClaims.

(** ** The correlated logger *)
Section LoggerClaims.
Context `{Upstream}.

(** C8: [LoggingMixin.prepare] runs the provider's [prepare] first and then
    copies the provider's identifier into the logger exactly when the
    response is not finished; when it is finished the logger is left as it
    was. *)
Theorem logger_follows_provider (lh : LoggingHandler) :
  let h := HandlerMixin.prepare (handler lh) in
  handler (LoggingMixin.prepare lh) = h
  /\ (_finished (base h) = false ->
      CorrelationAdapter.correlation_id (logger (LoggingMixin.prepare lh))
      = Some (HandlerMixin.correlation_id h))
  /\ (_finished (base h) = true ->
      logger (LoggingMixin.prepare lh) = logger lh).
Proof.
  intros h; unfold LoggingMixin.prepare; fold h.
  destruct (_finished (base h)); simpl; repeat split; congruence.
Qed.

End LoggerClaims.

Section StringFacts.

Lemma append_String (x : ascii) (a b : string) :
  String x a +:+ b = String x (a +:+ b).
Proof. reflexivity. Qed.

Lemma append_Empty (b : string) : EmptyString +:+ b = b.
Proof. reflexivity. Qed.

Lemma append_assoc (a b c : string) : (a +:+ b) +:+ c = a +:+ (b +:+ c).
Proof.
  induction a as [|x a IH]; [reflexivity|].
  rewrite !append_String, IH; reflexivity.
Qed.

Lemma length_append (a b : string) :
  String.length (a +:+ b) = (String.length a + String.length b)%nat.
Proof.
  induction a as [|x a IH]; [reflexivity|].
  rewrite append_String; simpl; rewrite IH; reflexivity.
Qed.

Lemma append_nonempty_neq (a b : string) :
  b <> EmptyString -> a +:+ b <> a.
Proof.
  intros Hb E. apply (f_equal String.length) in E.
  rewrite length_append in E.
  destruct b; [congruence | simpl in E; lia].
Qed.

End StringFacts.

Ltac string_cons := repeat (rewrite append_String || rewrite append_Empty).

Module AdapterFacts.
Import CorrelationAdapter.

Lemma process_set a m kwargs s :
  correlation_id a = Some s -> s <> EmptyString ->
  process a m kwargs
  = Some (m +:+ suffix s, <["extra"%string := KwExtra (extra a)]> kwargs).
Proof.
  intros E Hs; unfold process; rewrite E.
  destruct s as [|c s]; [congruence|]. reflexivity.
Qed.

Lemma process_unset a m kwargs :
  correlation_id a = None \/ correlation_id a = Some EmptyString ->
  process a m kwargs
  = Some (m, <["extra"%string := KwExtra (extra a)]> kwargs).
Proof. intros [E|E]; unfold process; rewrite E; reflexivity. Qed.

Lemma correlation_id_cases a :
  (exists s, correlation_id a = Some s /\ s <> EmptyString)
  \/ correlation_id a = None \/ correlation_id a = Some EmptyString.
Proof.
  destruct (correlation_id a) as [[|c s]|]; [auto | | auto].
  left; exists (String c s); split; [reflexivity | discriminate].
Qed.

End AdapterFacts.

Section AdapterClaims.
Import CorrelationAdapter AdapterFacts.

(** C3: [process] appends [ {CID <identifier>}] to the message exactly
    when the identifier is set to a non-empty string and passes the message
    through untouched otherwise; the positional arguments of the logging
    call reach the adapted logger as they were given; with the identifier
    [abc] the message [hello] comes out as [hello {CID abc}], with the
    identifier unset as [hello]. *)
Theorem process_appends_identifier (a : CorrelationAdapter.t) (m : string)
    (kwargs : gmap string KwVal) :
  (forall s, correlation_id a = Some s -> s <> EmptyString ->
     process a m kwargs
     = Some (m +:+ " {CID " +:+ s +:+ "}",
             <["extra"%string := KwExtra (extra a)]> kwargs))
  /\ (correlation_id a = None \/ correlation_id a = Some EmptyString ->
      process a m kwargs
      = Some (m, <["extra"%string := KwExtra (extra a)]> kwargs))
  /\ ((exists s, correlation_id a = Some s /\ s <> EmptyString)
      <-> (exists s, fst <$> process a m kwargs
                     = Some (m +:+ " {CID " +:+ s +:+ "}")))
  /\ (forall level args,
        exists m',
          fst <$> process a m kwargs = Some m'
          /\ log a level m args kwargs
             = Some {| levelname := level; msg := m'; args := args |})
  /\ (log (set_correlation_id (Some "abc"%string) a) INFO "hello" [] kwargs
        ≫= getMessage = Some "hello {CID abc}"%string)
  /\ (log (set_correlation_id None a) INFO "hello" [] kwargs
        ≫= getMessage = Some "hello"%string).
Proof.
  split; [intros s E Hs; apply (process_set a m kwargs s E Hs)|].
  split; [apply process_unset|].
  split; [split|].
  - intros (s & E & Hs); exists s.
    rewrite (process_set a m kwargs s E Hs); reflexivity.
  - intros (s & E).
    destruct (correlation_id_cases a) as [P|U]; [exact P|].
    rewrite (process_unset a m kwargs U) in E; simpl in E.
    exfalso. injection E as E. symmetry in E.
    revert E; apply append_nonempty_neq; discriminate.
  - split; [|split; reflexivity].
    intros level args; unfold log.
    destruct (correlation_id_cases a) as [(s & E & Hs)|U].
    + rewrite (process_set a m kwargs s E Hs); eexists; eauto.
    + rewrite (process_unset a m kwargs U); eexists; eauto.
Qed.

End AdapterClaims.

(** ** The access log *)
Section FormatFacts.
Import Format.

Lemma is_digit_not_minus c : is_digit c = true -> Ascii.eqb c "-"%char = false.
Proof. destruct c as [[] [] [] [] [] [] [] []]; (reflexivity || discriminate). Qed.

Lemma is_digit_digit k : (k < 10)%N -> is_digit (digit k) = true.
Proof.
  intros Hk.
  assert (k = 0 \/ k = 1 \/ k = 2 \/ k = 3 \/ k = 4 \/ k = 5 \/ k = 6
          \/ k = 7 \/ k = 8 \/ k = 9)%N as C by lia.
  repeat (destruct C as [->|C]; [reflexivity|]); subst; reflexivity.
Qed.

Lemma all_digits_uint u : all_digits (NilEmpty.string_of_uint u) = true.
Proof. induction u; simpl; auto. Qed.

Lemma all_digits_number u :
  all_digits (NilZero.string_of_uint u) = true
  /\ NilZero.string_of_uint u <> EmptyString.
Proof.
  destruct u; simpl; (split; [try reflexivity; apply all_digits_uint
                            | discriminate]).
Qed.

Lemma digits_then_fraction_append a d1 d2 :
  all_digits a = true -> a <> EmptyString ->
  is_digit d1 = true -> is_digit d2 = true ->
  digits_then_fraction
    (a +:+ String "."%char (String d1 (String d2 EmptyString))) = true.
Proof.
  intros Ha Hne H1 H2.
  induction a as [|c a IH]; [congruence|].
  rewrite append_String; simpl in Ha |- *.
  apply andb_prop in Ha as [Hc Ha]. rewrite Hc; simpl.
  destruct a as [|c' a'].
  - rewrite append_Empty; simpl. rewrite H1, H2; reflexivity.
  - rewrite IH by (auto; discriminate). apply orb_true_r.
Qed.

Lemma render_hundredths_two_decimals n :
  digits_then_fraction (render_hundredths n) = true.
Proof.
  unfold render_hundredths.
  destruct (all_digits_number (N.to_uint (n / 100))) as [Ha Hne].
  apply digits_then_fraction_append; auto.
  - apply is_digit_digit.
    apply N.Div0.div_lt_upper_bound.
    apply N.mod_upper_bound; discriminate.
  - apply is_digit_digit, N.mod_upper_bound; discriminate.
Qed.

Lemma digits_then_fraction_two_decimals s :
  digits_then_fraction s = true -> has_two_decimals s = true.
Proof.
  destruct s as [|c rest]; [discriminate|]. intros D.
  unfold has_two_decimals.
  rewrite is_digit_not_minus; [exact D|].
  simpl in D. apply andb_prop in D as [Hc _]; exact Hc.
Qed.

Lemma fmt_2f_two_decimals x :
  finite x = true -> has_two_decimals (fmt_2f x) = true.
Proof.
  unfold finite, fmt_2f.
  destruct (Prim2SF x) as [s|s| |s m e]; try discriminate; intros _.
  - destruct s; reflexivity.
  - destruct s; unfold sign.
    + rewrite append_String, append_Empty.
      exact (render_hundredths_two_decimals _).
    + rewrite append_Empty.
      apply digits_then_fraction_two_decimals,
        render_hundredths_two_decimals.
Qed.

End FormatFacts.

Section AccessLogFacts.

Lemma format_access_line status summary ms correlation_id :
  Format.pct_format "%d %s %.2fms {CID %s}"
    [PyInt status; PyStr summary; PyFloat ms; of_optional correlation_id]
  = Some (access_line status summary ms correlation_id).
Proof.
  unfold access_line.
  destruct correlation_id as [s|];
    cbn -[Format.fmt_d Format.fmt_2f]; string_cons; reflexivity.
Qed.

(** The one record that [correlation_id_logger] hands to the access
    logger. *)
Lemma correlation_id_logger_record handler access_log :
  exists r,
    correlation_id_logger handler access_log = access_log ++ [r]
    /\ levelname r = log_method (_status_code (any_base handler))
    /\ getMessage r
       = Some (access_line (_status_code (any_base handler))
                 (_request_summary (any_base handler))
                 (1000.0 * request_time (request (any_base handler)))%float
                 (logged_correlation_id handler)).
Proof.
  eexists; split; [reflexivity|]. split; [reflexivity|].
  apply format_access_line.
Qed.

Lemma access_line_marker status summary ms :
  access_line status summary ms None
  = (Format.fmt_d status +:+ " " +:+ summary +:+ " " +:+ Format.fmt_2f ms
       +:+ "ms ") +:+ "{CID None}".
Proof.
  unfold access_line, id_text.
  rewrite !append_assoc; string_cons; reflexivity.
Qed.

End AccessLogFacts.

Section AccessLogClaims.

(** C4, as amended: for a request whose time is a finite number the writer
    hands the access logger exactly one record, which renders as
    [<status> <summary> <duration>ms {CID <id-or-None>}] with the duration in
    milliseconds rounded to the nearest hundredth and printed with exactly
    two digits after the point; status 200, summary [GET /x HTTP/1.1], a
    duration of 12.345 ms and the identifier [abc] give
    [200 GET /x HTTP/1.1 12.35ms {CID abc}]. *)
Theorem access_log_line_format (handler : AnyHandler)
    (access_log : list LogRecord) :
  let ms := (1000.0 * request_time (request (any_base handler)))%float in
  Format.finite ms = true ->
  (exists r,
     correlation_id_logger handler access_log = access_log ++ [r]
     /\ getMessage r
        = Some (access_line (_status_code (any_base handler))
                  (_request_summary (any_base handler)) ms
                  (logged_correlation_id handler)))
  /\ Format.has_two_decimals (Format.fmt_2f ms) = true
  /\ (forall seconds,
        (1000.0 * seconds)%float = 0x1.8b0a3d70a3d71p+3%float ->
        map getMessage (correlation_id_logger (access_log_example seconds) [])
        = [Some "200 GET /x HTTP/1.1 12.35ms {CID abc}"%string]).
Proof.
  intros ms F. split; [|split].
  - destruct (correlation_id_logger_record handler access_log)
      as (r & E & _ & M).
    exists r; auto.
  - apply fmt_2f_two_decimals, F.
  - intros seconds E.
    unfold correlation_id_logger, access_log_example; simpl.
    rewrite E. vm_compute. reflexivity.
Qed.

(** C5: the record goes out at [INFO] for a status below 400, at [WARNING]
    for a status from 400 up to 499, and at [ERROR] for a status of 500 and
    more. *)
Theorem severity_by_status_band (handler : AnyHandler)
    (access_log : list LogRecord) :
  let status := Base.get_status (any_base handler) in
  exists r,
    correlation_id_logger handler access_log = access_log ++ [r]
    /\ (status < 400 -> levelname r = INFO)
    /\ (400 <= status < 500 -> levelname r = WARNING)
    /\ (500 <= status -> levelname r = ERROR).
Proof.
  intros status.
  destruct (correlation_id_logger_record handler access_log)
    as (r & E & L & _).
  exists r; split; [exact E|].
  rewrite L; subst status; unfold log_method, Base.get_status.
  generalize (_status_code (any_base handler)) as status; intros status.
  repeat split; intros Hs;
    destruct (Z.ltb_spec status 400); destruct (Z.ltb_spec status 500);
    (reflexivity || lia).
Qed.

(** C6: the identifier in the line is the one held by the provider mixed
    into the handler; for a handler without a provider it is the value of
    the inbound [Correlation-ID] header; with neither, the line carries the
    marker [None]. *)
Theorem correlation_id_fallback_chain (handler : AnyHandler)
    (access_log : list LogRecord) :
  let status := _status_code (any_base handler) in
  let summary := _request_summary (any_base handler) in
  let ms := (1000.0 * request_time (request (any_base handler)))%float in
  let inbound :=
    HTTPHeaders.get (headers (request (any_base handler)))
      "Correlation-ID" None in
  exists r,
    correlation_id_logger handler access_log = access_log ++ [r]
    /\ (forall v, any_correlation_id handler = Some (Some v) ->
          getMessage r = Some (access_line status summary ms (Some v)))
    /\ (any_correlation_id handler = None ->
        forall v, inbound = Some v ->
          getMessage r = Some (access_line status summary ms (Some v)))
    /\ (any_correlation_id handler = None -> inbound = None ->
        getMessage r = Some (access_line status summary ms None)
        /\ id_text None = "None"%string)
    /\ (forall h : Handler,
          logged_correlation_id (correlated h)
          = Some (HandlerMixin.correlation_id h))
    /\ (forall r' : RequestHandler,
          logged_correlation_id (uncorrelated r')
          = HTTPHeaders.get (headers (request r')) "Correlation-ID" None).
Proof.
  intros status summary ms inbound.
  destruct (correlation_id_logger_record handler access_log)
    as (r & E & _ & M).
  exists r; split; [exact E|].
  fold status summary ms in M. rewrite M.
  unfold logged_correlation_id, getattr_correlation_id; fold inbound.
  split; [intros v P; rewrite P; reflexivity|].
  split; [intros A v P; rewrite A, P; reflexivity|].
  split; [intros A P; rewrite A, P; split; reflexivity|].
  split; reflexivity.
Qed.

(** C10: whenever the attribute [correlation_id] of the handler reads as
    [None], a provider whose identifier is [None] included, the writer looks
    the identifier up in the inbound headers under the name [Correlation-ID],
    whatever header name the provider was configured with; when that header
    is absent too, the line ends in [{CID None}]. *)
Theorem fallback_reads_default_header (handler : AnyHandler)
    (access_log : list LogRecord) :
  getattr_correlation_id handler = None ->
  (any_correlation_id handler = None
   \/ any_correlation_id handler = Some None)
  /\ (forall name,
        logged_correlation_id (with_correlation_header name handler)
        = HTTPHeaders.get (headers (request (any_base handler)))
            "Correlation-ID" None)
  /\ (HTTPHeaders.get (headers (request (any_base handler)))
        "Correlation-ID" None = None ->
      forall name, exists r before,
        correlation_id_logger (with_correlation_header name handler) access_log
        = access_log ++ [r]
        /\ getMessage r = Some (before +:+ "{CID None}")).
Proof.
  unfold getattr_correlation_id; intros G.
  split; [destruct (any_correlation_id handler) as [[v|]|];
          [discriminate | auto | auto]|].
  assert (L : forall name,
             logged_correlation_id (with_correlation_header name handler)
             = HTTPHeaders.get (headers (request (any_base handler)))
                 "Correlation-ID" None).
  { intros name; unfold logged_correlation_id, getattr_correlation_id; simpl.
    destruct (any_correlation_id handler) as [[v|]|];
      [discriminate | reflexivity | reflexivity]. }
  split; [exact L|].
  intros A name.
  destruct (correlation_id_logger_record
              (with_correlation_header name handler) access_log)
    as (r & E & _ & M).
  exists r; eexists; split; [exact E|].
  rewrite M, L, A. f_equal. apply access_line_marker.
Qed.

End AccessLogClaims.

(** ** Worked requests *)

Example fmt_2f_examples :
  map Format.fmt_2f
    [0.125; 0.375; 2.5; 0; 12.5; 1e22; 0x1.8ffae147ae148p+6;
     0x1.8b0a3d70a3d71p+3; -0x1.0624dd2f1a9fcp-10]%float
  = ["0.12"; "0.38"; "2.50"; "0.00"; "12.50"; "10000000000000000000000.00";
     "100.00"; "12.35"; "-0.00"]%string.
Proof. vm_compute. reflexivity. Qed.

Example normalize_examples :
  map HeaderName.normalize ["correlation-id"; "Correlation-ID"; "X-REQUEST-id"]
  = ["Correlation-Id"; "Correlation-Id"; "X-Request-Id"]%string.
Proof. reflexivity. Qed.

(** [test_that_correlation_id_is_returned_when_successful] and
    [test_that_correlation_id_is_returned_in_error] *)
Example fetch_generated :
  forall status_code,
    HTTPHeaders.get
      (response_headers
         (fst (@CorrelatedRequestHandler.fetch tornado None uuid_a
                 status_code [])))
      "Correlation-ID" None = Some uuid_a.
Proof.
  intros status_code.
  unfold CorrelatedRequestHandler.fetch, CorrelatedRequestHandler.execute,
    CorrelatedRequestHandler.get.
  cbn [fst response_headers].
  destruct (300 <=? status_code); vm_compute; reflexivity.
Qed.

(** [test_that_correlation_id_is_copied_from_request] *)
Example fetch_copied :
  HTTPHeaders.get
    (response_headers
       (fst (@CorrelatedRequestHandler.fetch tornado None uuid_a 500
               [("Correlation-Id", "deadbeef")])))
    "correlation-id" None = Some "deadbeef"%string.
Proof. vm_compute. reflexivity. Qed.

Lemma outbound_header_is_identifier_witness :
  let h := new_handler None uuid_a [("Correlation-Id", "deadbeef")] in
  @HandlerMixin.reachable tornado h
  /\ @HandlerMixin.upstream_keeps tornado (__header_name h)
  /\ HandlerMixin.outbound
       (@CorrelatedRequestHandler.execute tornado 500 h) = Some "deadbeef"%string
  /\ HandlerMixin.outbound
       (@CorrelatedRequestHandler.execute tornado 200 h) = Some "deadbeef"%string.
Proof.
  intros h.
  assert (R : @HandlerMixin.reachable tornado h)
    by apply HandlerMixin.reach_init.
  assert (K : @HandlerMixin.upstream_keeps tornado (__header_name h))
    by (intros r; reflexivity).
  split; [exact R|]. split; [exact K|].
  destruct (@outbound_header_is_identifier tornado h R K)
    as (_ & _ & _ & _ & E).
  split; [rewrite (E 500) | rewrite (E 200)]; vm_compute; reflexivity.
Defined.

(** C2, as the claim has it: an inbound header that is present with the
    empty value does not keep the generated identifier; [prepare] adopts the
    empty value. *)
Lemma prepare_keeps_default_on_empty_counterexample :
  let h := new_handler None uuid_a [("Correlation-ID", EmptyString)] in
  @HandlerMixin.get_request_header h "Correlation-ID" None = Some EmptyString
  /\ HandlerMixin.correlation_id h = uuid_a
  /\ HandlerMixin.correlation_id (@HandlerMixin.prepare tornado h) = EmptyString
  /\ HandlerMixin.correlation_id (@HandlerMixin.prepare tornado h)
     <> HandlerMixin.correlation_id h
  /\ HandlerMixin.outbound (@HandlerMixin.prepare tornado h) = Some EmptyString.
Proof.
  intros h. split; [vm_compute; reflexivity|].
  split; [reflexivity|]. split; [vm_compute; reflexivity|].
  split; [vm_compute; discriminate | vm_compute; reflexivity].
Qed.

Lemma prepare_adopts_inbound_header_witness :
  let h := new_handler None uuid_a [("Correlation-Id", "deadbeef")] in
  let h' := new_handler None uuid_a [("Correlation-ID", EmptyString)] in
  let g := new_handler None uuid_a [("Accept", "text/html")] in
  (@HandlerMixin.inbound tornado h = Some "deadbeef"%string
   /\ HandlerMixin.correlation_id (@HandlerMixin.prepare tornado h)
      = "deadbeef"%string
   /\ HandlerMixin.outbound (@HandlerMixin.prepare tornado h)
      = Some "deadbeef"%string)
  /\ (@HandlerMixin.inbound tornado h' = Some EmptyString
      /\ HandlerMixin.correlation_id (@HandlerMixin.prepare tornado h')
         = EmptyString)
  /\ (@HandlerMixin.inbound tornado g = None
      /\ HandlerMixin.correlation_id (@HandlerMixin.prepare tornado g) = uuid_a).
Proof.
  intros h h' g.
  assert (I : @HandlerMixin.inbound tornado h = Some "deadbeef"%string)
    by (vm_compute; reflexivity).
  assert (I' : @HandlerMixin.inbound tornado h' = Some EmptyString)
    by (vm_compute; reflexivity).
  assert (J : @HandlerMixin.inbound tornado g = None)
    by (vm_compute; reflexivity).
  split; [split; [exact I|]|split; [split; [exact I'|]|split; [exact J|]]].
  - exact (proj1 (@prepare_adopts_inbound_header tornado h) _ I).
  - exact (proj1 (proj1 (@prepare_adopts_inbound_header tornado h') _ I')).
  - exact (proj1 (proj2 (@prepare_adopts_inbound_header tornado g) J)).
Defined.

Lemma set_default_headers_idempotent_witness :
  let h := new_handler None uuid_a [] in
  (forall r, @super_set_default_headers tornado r = r)
  /\ Nat.iter 3 (@HandlerMixin.set_default_headers tornado) h
     = @HandlerMixin.set_default_headers tornado h
  /\ HandlerMixin.outbound
       (Nat.iter 3 (@HandlerMixin.set_default_headers tornado) h)
     = Some uuid_a.
Proof.
  intros h.
  assert (N : forall r, @super_set_default_headers tornado r = r)
    by (intros r; reflexivity).
  split; [exact N|].
  destruct (@set_default_headers_idempotent tornado h 2) as (_ & E & _ & S).
  split; [exact (S N) | exact E].
Defined.

Lemma logger_follows_provider_witness :
  let h := new_handler None uuid_a [("Correlation-Id", "deadbeef")] in
  let open := LoggingMixin.initialize None "CorrelatedRequestHandler" h in
  let closed := LoggingMixin.initialize None "CorrelatedRequestHandler"
                  (HandlerMixin.finish h) in
  (_finished (base (@HandlerMixin.prepare tornado (handler open))) = false
   /\ CorrelationAdapter.correlation_id
        (logger (@LoggingMixin.prepare tornado open))
      = Some "deadbeef"%string)
  /\ (_finished (base (@HandlerMixin.prepare tornado (handler closed))) = true
      /\ CorrelationAdapter.correlation_id
           (logger (@LoggingMixin.prepare tornado closed)) = None).
Proof.
  intros h open closed.
  assert (F : _finished (base (@HandlerMixin.prepare tornado (handler open)))
              = false) by (vm_compute; reflexivity).
  assert (T : _finished (base (@HandlerMixin.prepare tornado (handler closed)))
              = true) by (vm_compute; reflexivity).
  split; (split; [assumption|]).
  - rewrite (proj1 (proj2 (@logger_follows_provider tornado open)) F).
    vm_compute; reflexivity.
  - rewrite (proj2 (proj2 (@logger_follows_provider tornado closed)) T).
    reflexivity.
Defined.

Lemma get_request_header_case_insensitive_witness :
  let h := new_handler None uuid_a [("Correlation-Id", "deadbeef")] in
  HeaderName.same_name "correlation-id" "Correlation-Id"
  /\ HandlerMixin.get_request_header h "correlation-id" None
     = Some "deadbeef"%string
  /\ HandlerMixin.get_request_header h "CORRELATION-ID" (Some "none"%string)
     = Some "deadbeef"%string
  /\ HandlerMixin.get_request_header h "X-Request-Id" (Some "none"%string)
     = Some "none"%string.
Proof.
  intros h.
  assert (E : HeaderName.same_name "correlation-id" "Correlation-Id")
    by reflexivity.
  assert (E' : HeaderName.same_name "CORRELATION-ID" "Correlation-Id")
    by reflexivity.
  assert (E0 : HeaderName.same_name "X-Request-Id" "X-Request-Id")
    by reflexivity.
  split; [exact E|].
  split; [|split].
  - apply (proj1 (proj2 (get_request_header_case_insensitive h
                           _ _ None E))).
    vm_compute; reflexivity.
  - apply (proj1 (proj2 (get_request_header_case_insensitive h
                           _ _ (Some "none"%string) E'))).
    vm_compute; reflexivity.
  - apply (proj1 (proj2 (proj2 (proj2 (get_request_header_case_insensitive h
                                         _ _ (Some "none"%string) E0))))).
    vm_compute; reflexivity.
Defined.

Lemma process_appends_identifier_witness :
  let a := CorrelationAdapter.set_correlation_id (Some "abc"%string)
             (CorrelationAdapter.__init__ "tornado.application" None) in
  let b := CorrelationAdapter.__init__ "tornado.application" None in
  fst <$> CorrelationAdapter.process a "hello" ∅
  = Some "hello {CID abc}"%string
  /\ fst <$> CorrelationAdapter.process b "hello" ∅ = Some "hello"%string
  /\ fst <$> CorrelationAdapter.process
               (CorrelationAdapter.set_correlation_id (Some EmptyString) b)
               "hello" ∅ = Some "hello"%string.
Proof.
  intros a b. split; [|split].
  - rewrite (proj1 (process_appends_identifier a "hello" ∅) "abc"%string
               eq_refl ltac:(discriminate)).
    reflexivity.
  - rewrite (proj1 (proj2 (process_appends_identifier b "hello" ∅))
               (or_introl eq_refl)).
    reflexivity.
  - rewrite (proj1 (proj2 (process_appends_identifier
                             (CorrelationAdapter.set_correlation_id
                                (Some EmptyString) b) "hello" ∅))
               (or_intror eq_refl)).
    reflexivity.
Defined.

(** C4, as the claim has it: the duration of 12.345 ms is not printed as
    [12.34]; the line reads [12.35ms]. *)
Lemma access_log_line_counterexample :
  let handler := access_log_example seconds_12_345 in
  (1000.0 * request_time (request (any_base handler)))%float
  = 0x1.8b0a3d70a3d71p+3%float
  /\ map getMessage (correlation_id_logger handler [])
     = [Some "200 GET /x HTTP/1.1 12.35ms {CID abc}"%string]
  /\ map getMessage (correlation_id_logger handler [])
     <> [Some "200 GET /x HTTP/1.1 12.34ms {CID abc}"%string].
Proof.
  intros handler.
  split; [vm_compute; reflexivity|].
  split; [vm_compute; reflexivity | vm_compute; discriminate].
Qed.

Lemma access_log_line_format_witness :
  let handler := access_log_example seconds_12_345 in
  Format.finite
    (1000.0 * request_time (request (any_base handler)))%float = true
  /\ (exists r,
        correlation_id_logger handler [] = [r]
        /\ getMessage r
           = Some "200 GET /x HTTP/1.1 12.35ms {CID abc}"%string)
  /\ Format.has_two_decimals "12.35" = true.
Proof.
  intros handler.
  assert (F : Format.finite
                (1000.0 * request_time (request (any_base handler)))%float
              = true) by (vm_compute; reflexivity).
  split; [exact F|].
  destruct (access_log_line_format handler [] F) as ((r & E & M) & D & _).
  split; [exists r; split; [exact E | rewrite M; vm_compute; reflexivity]|].
  exact D.
Defined.

Lemma severity_by_status_band_witness :
  (exists r,
     correlation_id_logger (finished_handler 200 [] None None) [] = [r]
     /\ levelname r = INFO)
  /\ (exists r,
        correlation_id_logger (finished_handler 404 [] None None) [] = [r]
        /\ levelname r = WARNING)
  /\ (exists r,
        correlation_id_logger (finished_handler 500 [] None None) [] = [r]
        /\ levelname r = ERROR).
Proof.
  split; [|split].
  - destruct (severity_by_status_band (finished_handler 200 [] None None) [])
      as (r & E & I & _ & _).
    exists r; split; [exact E | apply I; simpl; lia].
  - destruct (severity_by_status_band (finished_handler 404 [] None None) [])
      as (r & E & _ & W & _).
    exists r; split; [exact E | apply W; simpl; lia].
  - destruct (severity_by_status_band (finished_handler 500 [] None None) [])
      as (r & E & _ & _ & X).
    exists r; split; [exact E | apply X; simpl; lia].
Defined.

Lemma correlation_id_fallback_chain_witness :
  let inbound := [("Correlation-ID", "from-request")]%string in
  (exists r,
     correlation_id_logger
       (finished_handler 200 inbound (Some (Some "abc"%string))
          (Some "Correlation-ID"%string)) [] = [r]
     /\ getMessage r = Some "200 GET /x HTTP/1.1 12.35ms {CID abc}"%string)
  /\ (exists r,
        correlation_id_logger (finished_handler 200 inbound None None) [] = [r]
        /\ getMessage r
           = Some "200 GET /x HTTP/1.1 12.35ms {CID from-request}"%string)
  /\ (exists r,
        correlation_id_logger (finished_handler 200 [] None None) [] = [r]
        /\ getMessage r
           = Some "200 GET /x HTTP/1.1 12.35ms {CID None}"%string).
Proof.
  intros inbound. split; [|split].
  - destruct (correlation_id_fallback_chain
                (finished_handler 200 inbound (Some (Some "abc"%string))
                   (Some "Correlation-ID"%string)) [])
      as (r & E & P & _ & _).
    exists r; split; [exact E|].
    rewrite (P "abc"%string eq_refl). vm_compute; reflexivity.
  - destruct (correlation_id_fallback_chain
                (finished_handler 200 inbound None None) [])
      as (r & E & _ & Q & _).
    exists r; split; [exact E|].
    rewrite (Q eq_refl "from-request"%string ltac:(vm_compute; reflexivity)).
    vm_compute; reflexivity.
  - destruct (correlation_id_fallback_chain
                (finished_handler 200 [] None None) [])
      as (r & E & _ & _ & N & _).
    exists r; split; [exact E|].
    rewrite (proj1 (N eq_refl ltac:(vm_compute; reflexivity))).
    vm_compute; reflexivity.
Defined.

Lemma fallback_reads_default_header_witness :
  let inbound := [("X-Request-Id", "abc")]%string in
  let handler :=
    finished_handler 200 inbound (Some None) (Some "X-Request-Id"%string) in
  getattr_correlation_id handler = None
  /\ HTTPHeaders.get (headers (request (any_base handler)))
       "X-Request-Id" None = Some "abc"%string
  /\ logged_correlation_id handler = None
  /\ map getMessage (correlation_id_logger handler [])
     = [Some "200 GET /x HTTP/1.1 12.35ms {CID None}"%string]
  /\ (exists r before,
        correlation_id_logger handler [] = [r]
        /\ getMessage r = Some (before +:+ "{CID None}")).
Proof.
  intros inbound handler.
  assert (G : getattr_correlation_id handler = None) by reflexivity.
  assert (A : HTTPHeaders.get (headers (request (any_base handler)))
                "Correlation-ID" None = None) by (vm_compute; reflexivity).
  destruct (fallback_reads_default_header handler [] G) as (_ & L & M).
  split; [exact G|]. split; [vm_compute; reflexivity|].
  split; [rewrite <- A; exact (L (Some "X-Request-Id"%string))|].
  split; [vm_compute; reflexivity|].
  exact (M A (Some "X-Request-Id"%string)).
Defined.

(** * Further properties of the mix-ins *)

(** ** Construction, assignment and the hooks *)
Section ProviderFrame.
Context `{Upstream}.
Import HandlerMixin.

Lemma set_correlation_id_twice v w h :
  set_correlation_id v (set_correlation_id w h) = set_correlation_id v h.
Proof.
  unfold set_correlation_id, set_header, Base.set_header, HTTPHeaders.set,
    with_base, Base.with_headers; simpl.
  rewrite insert_insert_eq; reflexivity.
Qed.

Lemma with_base_base h : with_base (base h) h = h.
Proof. destruct h; reflexivity. Qed.

(** A handler comes out of its constructor with the configured header name
    (or [Correlation-ID]), the generated identifier, and that identifier
    already in the headers of the response under every spelling of the name,
    whatever the request carries and whatever the upstream hooks do. *)
Theorem construction_writes_generated_identifier
    (correlation_header : option string) (uuid4 : string)
    (r : RequestHandler) (n : string) :
  HeaderName.same_name n (default "Correlation-ID"%string correlation_header) ->
  let h := __init__ correlation_header uuid4 r in
  __header_name h = default "Correlation-ID"%string correlation_header
  /\ correlation_id h = uuid4
  /\ outbound h = Some uuid4
  /\ HTTPHeaders.get (_headers (base h)) n None = Some uuid4.
Proof.
  intros E h.
  assert (O : outbound h = Some uuid4).
  { unfold h, __init__.
    match goal with |- outbound (clear ?h0) = _ =>
      destruct (clear_outbound h0) as (-> & _ & _) end.
    reflexivity. }
  repeat split; [exact O|].
  rewrite (get_same_name _ _ _ _ E). exact O.
Qed.

(** Assigning the identifier twice leaves the handler as the second
    assignment alone does; an assignment changes no header of the response
    but the correlation header, and not the status, the finished flag, the
    request or the header name. *)
Theorem assignment_overwrites (v w : string) (h : Handler) :
  set_correlation_id v (set_correlation_id w h) = set_correlation_id v h
  /\ (forall n d,
        HeaderName.normalize n <> HeaderName.normalize (__header_name h) ->
        HTTPHeaders.get (_headers (base (set_correlation_id v h))) n d
        = HTTPHeaders.get (_headers (base h)) n d)
  /\ _status_code (base (set_correlation_id v h)) = _status_code (base h)
  /\ _finished (base (set_correlation_id v h)) = _finished (base h)
  /\ request (base (set_correlation_id v h)) = request (base h)
  /\ __header_name (set_correlation_id v h) = __header_name h.
Proof.
  split; [apply set_correlation_id_twice|].
  split; [|repeat split].
  intros n d Hne. unfold set_correlation_id, set_header; simpl.
  apply get_set_ne. intros E; apply Hne; symmetry; exact E.
Qed.

(** The hooks of the mix-in add to what the upstream hooks leave behind:
    every header of the response other than the correlation header, the
    status, the finished flag and the request are as [super()] returned
    them. *)
Theorem hooks_write_only_correlation_header (h : Handler) (n : string)
    (d : option string) :
  HeaderName.normalize n <> HeaderName.normalize (__header_name h) ->
  (HTTPHeaders.get (_headers (base (set_default_headers h))) n d
   = HTTPHeaders.get (_headers (super_set_default_headers (base h))) n d
   /\ _status_code (base (set_default_headers h))
      = _status_code (super_set_default_headers (base h))
   /\ _finished (base (set_default_headers h))
      = _finished (super_set_default_headers (base h)))
  /\ (HTTPHeaders.get (_headers (base (prepare h))) n d
      = HTTPHeaders.get (_headers (super_prepare (base h))) n d
      /\ _status_code (base (prepare h)) = _status_code (super_prepare (base h))
      /\ _finished (base (prepare h)) = _finished (super_prepare (base h))
      /\ request (base (prepare h)) = request (super_prepare (base h))).
Proof.
  intros Hne.
  assert (Hne' : HeaderName.normalize (__header_name h)
                 <> HeaderName.normalize n)
    by (intros E; apply Hne; symmetry; exact E).
  split.
  - unfold set_default_headers, set_header; simpl.
    rewrite get_set_ne by exact Hne'. auto.
  - pose proof (prepare_cases h) as P.
    destruct (inbound h) as [v|]; rewrite P; [|simpl; auto].
    unfold set_correlation_id, set_header; simpl.
    rewrite get_set_ne by exact Hne'. auto.
Qed.

(** Over an upstream [prepare] that does nothing, running [prepare] a second
    time changes nothing: the same inbound header is read and written
    again. *)
Theorem prepare_idempotent (h : Handler) :
  (forall r, super_prepare r = r) ->
  prepare (prepare h) = prepare h.
Proof.
  intros N.
  assert (P : forall g, prepare g
              = match get_request_header g (__header_name g) None with
                | Some v => set_correlation_id v g
                | None => g
                end).
  { intros g. unfold prepare. rewrite N, with_base_base. reflexivity. }
  rewrite (P h).
  destruct (get_request_header h (__header_name h) None) as [v|] eqn:I.
  - rewrite P.
    change (get_request_header (set_correlation_id v h)
              (__header_name (set_correlation_id v h)) None)
      with (get_request_header h (__header_name h) None).
    rewrite I. apply set_correlation_id_twice.
  - rewrite P, I. reflexivity.
Qed.

End ProviderFrame.

(** ** The requests of the test suite *)
Section TestSuite.
Variable initial : HTTPHeaders.t.
Let plain : Upstream := plain_upstream initial.
Import HandlerMixin.



End TestSuite.

(** ** The logger of a handler *)
Section LoggerFlow.
Context `{Upstream}.

(** The logger that [initialize] installs adapts the logger the object
    already has, or one named after the class; it holds no identifier, so
    until [prepare] has run every message comes out of [process] as it went
    in. *)
Theorem initialized_logger_passes_through (existing : option string)
    (class_name : string) (h : Handler) (m : string)
    (kwargs : gmap string KwVal) :
  let lh := LoggingMixin.initialize existing class_name h in
  handler lh = h
  /\ CorrelationAdapter.logger (logger lh)
     = match existing with Some name => name | None => class_name end
  /\ CorrelationAdapter.correlation_id (logger lh) = None
  /\ CorrelationAdapter.process (logger lh) m kwargs
     = Some (m, <["extra"%string := KwExtra ∅]> kwargs)
  /\ (forall level,
        CorrelationAdapter.log (logger lh) level m [] kwargs ≫= getMessage
        = Some m).
Proof.
  intros lh. split; [reflexivity|].
  split; [destruct existing; reflexivity|].
  split; [reflexivity|]. split; reflexivity.
Qed.

(** After [prepare], the messages of a request that is not finished end in
    the identifier of the provider when that identifier is not empty, and
    pass unchanged when it is empty; for a request that was finished before,
    the provider still adopts the inbound header while the logger stays as
    it was. *)
Theorem prepared_logger_appends_provider_identifier (lh : LoggingHandler)
    (m : string) (kwargs : gmap string KwVal) :
  let lh' := LoggingMixin.prepare lh in
  let identifier := HandlerMixin.correlation_id (handler lh') in
  (_finished (base (handler lh')) = false ->
   identifier <> EmptyString ->
   fst <$> CorrelationAdapter.process (logger lh') m kwargs
   = Some (m +:+ " {CID " +:+ identifier +:+ "}"))
  /\ (_finished (base (handler lh')) = false ->
      identifier = EmptyString ->
      fst <$> CorrelationAdapter.process (logger lh') m kwargs = Some m)
  /\ (_finished (base (handler lh')) = true ->
      (forall v, HandlerMixin.inbound (handler lh) = Some v ->
                 identifier = v)
      /\ CorrelationAdapter.process (logger lh') m kwargs
         = CorrelationAdapter.process (logger lh) m kwargs).
Proof.
  intros lh' identifier.
  assert (Hh : handler lh' = HandlerMixin.prepare (handler lh)).
  { unfold lh', LoggingMixin.prepare.
    destruct (negb _); reflexivity. }
  assert (Open : _finished (base (handler lh')) = false ->
                 CorrelationAdapter.correlation_id (logger lh')
                 = Some identifier).
  { intros F. unfold identifier. rewrite Hh in F |- *.
    unfold lh', LoggingMixin.prepare. rewrite F. reflexivity. }
  split; [|split].
  - intros F Ne.
    rewrite (AdapterFacts.process_set _ m kwargs identifier (Open F) Ne).
    reflexivity.
  - intros F E.
    rewrite (AdapterFacts.process_unset (logger lh') m kwargs); [reflexivity|].
    right. rewrite (Open F), E. reflexivity.
  - intros F. split.
    + intros v I. unfold identifier. rewrite Hh, prepare_correlation_id, I.
      reflexivity.
    + rewrite Hh in F. unfold lh', LoggingMixin.prepare. rewrite F.
      reflexivity.
Qed.

End LoggerFlow.

(** ** Messages with arguments *)
Section Substitution.
Import Format.









End Substitution.

(** ** The access log of handlers with and without the mix-in *)
Section AccessLogFlow.
Context `{Upstream}.

(** For a handler with the mix-in, at every state it reaches, the identifier
    in the access-log line is the value of the correlation header of the
    response; the inbound header is not consulted. *)
Theorem access_log_agrees_with_response (h : Handler)
    (access_log : list LogRecord) :
  HandlerMixin.reachable h ->
  HandlerMixin.upstream_keeps (__header_name h) ->
  logged_correlation_id (correlated h) = HandlerMixin.outbound h
  /\ exists r,
       correlation_id_logger (correlated h) access_log = access_log ++ [r]
       /\ getMessage r
          = Some (access_line (_status_code (base h))
                    (_request_summary (base h))
                    (1000.0 * request_time (request (base h)))%float
                    (HandlerMixin.outbound h)).
Proof.
  intros R K.
  assert (E : logged_correlation_id (correlated h) = HandlerMixin.outbound h).
  { rewrite (reachable_invariant h R K). reflexivity. }
  split; [exact E|].
  destruct (correlation_id_logger_record (correlated h) access_log)
    as (r & A & _ & M).
  exists r; split; [exact A|].
  rewrite M, E. reflexivity.
Qed.

End AccessLogFlow.

Section AccessLogRun.

(** For a handler without the mix-in the writer finds the inbound header
    under every spelling of [Correlation-ID], and prints its value as it is,
    the empty value included. *)
Theorem fallback_finds_header_in_any_case (r : RequestHandler) (n v : string)
    (hs : HTTPHeaders.t) :
  HeaderName.same_name n "Correlation-ID" ->
  headers (request r) = HTTPHeaders.set n v hs ->
  logged_correlation_id (uncorrelated r) = Some v
  /\ forall access_log, exists record,
       correlation_id_logger (uncorrelated r) access_log
       = access_log ++ [record]
       /\ getMessage record
          = Some (access_line (_status_code r) (_request_summary r)
                    (1000.0 * request_time (request r))%float (Some v)).
Proof.
  intros E S.
  assert (L : logged_correlation_id (uncorrelated r) = Some v).
  { unfold logged_correlation_id, getattr_correlation_id; simpl.
    rewrite S, <- (get_same_name _ _ _ _ E). apply get_set_eq. }
  split; [exact L|].
  intros access_log.
  destruct (correlation_id_logger_record (uncorrelated r) access_log)
    as (record & A & _ & M).
  exists record; split; [exact A|]. rewrite M, L. reflexivity.
Qed.

Lemma log_requests_app handlers :
  forall access_log,
  exists records,
    log_requests handlers access_log = access_log ++ records
    /\ Forall2 access_record handlers records.
Proof.
  induction handlers as [|handler rest IH]; intros access_log.
  - exists []; split; [symmetry; apply app_nil_r | constructor].
  - destruct (correlation_id_logger_record handler access_log)
      as (r & A & L & M).
    destruct (IH (access_log ++ [r])) as (records & E & F).
    exists (r :: records); split.
    + unfold log_requests in *; simpl. rewrite A, E, <- app_assoc.
      reflexivity.
    + constructor; [split; assumption | exact F].
Qed.

(** A run of finished requests adds one record for each to the access log,
    in the order of the requests, and leaves the records that were there
    untouched. *)
Theorem one_record_per_request (handlers : list AnyHandler)
    (access_log : list LogRecord) :
  exists records,
    log_requests handlers access_log = access_log ++ records
    /\ length records = length handlers
    /\ Forall2 access_record handlers records.
Proof.
  destruct (log_requests_app handlers access_log) as (records & E & F).
  exists records; split; [exact E|]. split; [|exact F].
  symmetry; apply (Forall2_length _ _ _ F).
Qed.

End AccessLogRun.

(** ** Further worked requests *)

Lemma construction_writes_generated_identifier_witness :
  let h := new_handler (Some "X-Request-Id"%string) uuid_a
             [("X-Request-Id", "deadbeef")] in
  HeaderName.same_name "x-request-id" "X-Request-Id"
  /\ HandlerMixin.correlation_id h = uuid_a
  /\ HTTPHeaders.get (_headers (base h)) "x-request-id" None = Some uuid_a.
Proof.
  intros h.
  assert (E : HeaderName.same_name "x-request-id"
                (default "Correlation-ID"%string (Some "X-Request-Id"%string)))
    by reflexivity.
  split; [exact E|].
  destruct (@construction_writes_generated_identifier tornado
              (Some "X-Request-Id"%string) uuid_a
              (Base.fresh (request_with [("X-Request-Id", "deadbeef")]%string)
                 "GET /status") "x-request-id" E) as (_ & C & _ & G).
  split; [exact C | exact G].
Defined.

Lemma assignment_overwrites_witness :
  let h := HandlerMixin.set_header "Content-Type" "text/plain"
             (new_handler None uuid_a []) in
  HeaderName.normalize "Content-Type" <> HeaderName.normalize (__header_name h)
  /\ HTTPHeaders.get
       (_headers (base (HandlerMixin.set_correlation_id "abc" h)))
       "Content-Type" None = Some "text/plain"%string
  /\ HandlerMixin.set_correlation_id "abc"
       (HandlerMixin.set_correlation_id "xyz" h)
     = HandlerMixin.set_correlation_id "abc" h.
Proof.
  intros h.
  assert (Ne : HeaderName.normalize "Content-Type"
               <> HeaderName.normalize (__header_name h))
    by (vm_compute; discriminate).
  split; [exact Ne|].
  destruct (assignment_overwrites "abc" "xyz" h) as (T & F & _).
  split; [|exact T].
  rewrite (F "Content-Type"%string None Ne). vm_compute; reflexivity.
Defined.

Lemma hooks_write_only_correlation_header_witness :
  let h := HandlerMixin.set_header "Content-Type" "text/plain"
             (new_handler None uuid_a [("Correlation-ID", "deadbeef")]) in
  HeaderName.normalize "Content-Type" <> HeaderName.normalize (__header_name h)
  /\ HTTPHeaders.get (_headers (base (@HandlerMixin.prepare tornado h)))
       "Content-Type" None = Some "text/plain"%string
  /\ HTTPHeaders.get
       (_headers (base (@HandlerMixin.set_default_headers tornado h)))
       "Content-Type" None = Some "text/plain"%string.
Proof.
  intros h.
  assert (Ne : HeaderName.normalize "Content-Type"
               <> HeaderName.normalize (__header_name h))
    by (vm_compute; discriminate).
  split; [exact Ne|].
  destruct (@hooks_write_only_correlation_header tornado h
              "Content-Type" None Ne) as ((D & _) & (P & _)).
  split; [rewrite P | rewrite D]; vm_compute; reflexivity.
Defined.

Lemma prepare_idempotent_witness :
  let h := new_handler None uuid_a [("Correlation-Id", "deadbeef")] in
  (forall r, @super_prepare tornado r = r)
  /\ @HandlerMixin.prepare tornado (@HandlerMixin.prepare tornado h)
     = @HandlerMixin.prepare tornado h.
Proof.
  intros h.
  assert (N : forall r, @super_prepare tornado r = r)
    by (intros r; reflexivity).
  split; [exact N | exact (@prepare_idempotent tornado h N)].
Defined.


Lemma prepared_logger_appends_provider_identifier_witness :
  let lh := LoggingMixin.initialize None "CorrelatedRequestHandler"
              (new_handler None uuid_a [("Correlation-Id", "deadbeef")]) in
  let empty := LoggingMixin.initialize None "CorrelatedRequestHandler"
                 (new_handler None uuid_a [("Correlation-Id", EmptyString)]) in
  fst <$> CorrelationAdapter.process
            (logger (@LoggingMixin.prepare tornado lh)) "hello" ∅
  = Some "hello {CID deadbeef}"%string
  /\ fst <$> CorrelationAdapter.process
               (logger (@LoggingMixin.prepare tornado empty)) "hello" ∅
     = Some "hello"%string.
Proof.
  intros lh empty. split.
  - rewrite (proj1 (@prepared_logger_appends_provider_identifier tornado lh
                      "hello" ∅)
               ltac:(vm_compute; reflexivity) ltac:(vm_compute; discriminate)).
    vm_compute; reflexivity.
  - rewrite (proj1 (proj2 (@prepared_logger_appends_provider_identifier
                             tornado empty "hello" ∅))
               ltac:(vm_compute; reflexivity) ltac:(vm_compute; reflexivity)).
    reflexivity.
Defined.



Lemma access_log_agrees_with_response_witness :
  let h := @CorrelatedRequestHandler.execute tornado 500
             (new_handler None uuid_a [("Correlation-Id", "deadbeef")]) in
  @HandlerMixin.reachable tornado h
  /\ @HandlerMixin.upstream_keeps tornado (__header_name h)
  /\ HandlerMixin.outbound h = Some "deadbeef"%string
  /\ map getMessage (correlation_id_logger (correlated h) [])
     = [Some "500 GET /status 0.00ms {CID deadbeef}"%string].
Proof.
  intros h.
  assert (R : @HandlerMixin.reachable tornado h)
    by apply execute_reachable, HandlerMixin.reach_init.
  assert (K : @HandlerMixin.upstream_keeps tornado (__header_name h))
    by (intros r; reflexivity).
  split; [exact R|]. split; [exact K|].
  destruct (@access_log_agrees_with_response tornado h [] R K)
    as (L & r & A & M).
  split; [rewrite <- L; vm_compute; reflexivity|].
  rewrite A. cbn [app map]. rewrite M. vm_compute; reflexivity.
Defined.

Lemma fallback_finds_header_in_any_case_witness :
  let r := Base.fresh (request_with [("correlation-id", "deadbeef")])
             "GET /status" in
  HeaderName.same_name "correlation-id" "Correlation-ID"
  /\ headers (request r)
     = HTTPHeaders.set "correlation-id" "deadbeef" HTTPHeaders.empty
  /\ logged_correlation_id (uncorrelated r) = Some "deadbeef"%string.
Proof.
  intros r.
  assert (E : HeaderName.same_name "correlation-id" "Correlation-ID")
    by reflexivity.
  assert (S : headers (request r)
              = HTTPHeaders.set "correlation-id" "deadbeef" HTTPHeaders.empty)
    by reflexivity.
  split; [exact E|]. split; [exact S|].
  exact (proj1 (fallback_finds_header_in_any_case r _ _ _ E S)).
Defined.

Example one_record_per_request_run :
  map getMessage
    (log_requests
       [finished_handler 200 [] (Some (Some "abc"%string)) None;
        finished_handler 404 [("Correlation-ID", "from-request")] None None;
        finished_handler 500 [] (Some None) (Some "X-Request-Id"%string)] [])
  = [Some "200 GET /x HTTP/1.1 12.35ms {CID abc}"%string;
     Some "404 GET /x HTTP/1.1 12.35ms {CID from-request}"%string;
     Some "500 GET /x HTTP/1.1 12.35ms {CID None}"%string].
Proof. vm_compute. reflexivity. Qed.
